(** * The package facade [hatch_mcp_server/__init__.py]

    The module body is a docstring and three statements:
<<
    __version__ = "0.2.0"
    from .hatch_mcp import HatchMCP
    __all__ = [ 'HatchMCP' ]
>>
    The body is embedded as a list of statements and run by an executor that
    follows what CPython does for each of them: [STORE_NAME] for the two
    assignments, and [IMPORT_NAME] / [IMPORT_FROM] / [STORE_NAME] for the
    from-import, with the part of [importlib._bootstrap] that the import
    goes through ([_find_and_load], [_load_unlocked]).

    The collaborator [hatch_mcp_server.hatch_mcp] is not part of this file.
    It enters as the environment of a load: what [sys.modules] holds when
    the load starts, and what the path finder can locate, where a located
    module is given by what executing its body does (its effects, the
    modules it leaves registered, and the namespace it builds or the
    exception it raises).  It is a plain module, not a package, and its
    attributes are the entries of its dict.  An entry of [sys.modules] is a
    module; the [None] that marks a halted import is not among the
    environments.  [load_facade] runs the body as
    it is compiled without [-OO]; [compiled] gives the body for each
    optimisation level. *)

From Stdlib Require Import Ascii String.
From stdpp Require Import base strings gmap list fin_maps.

Local Open Scope string_scope.
Local Open Scope list_scope.
#[local] Set Warnings "-register-all".

(** ** Values and namespaces *)

(** Python objects, as far as the facade handles them.  An object that the
    facade only passes around (the class [HatchMCP]) is known by its
    identity alone; a module object is known by the name it is registered
    under; [VDictOf] is the dict of a module. *)
Inductive value :=
| VNone
| VStr (s : string)
| VList (items : list value)
| VObj (id : positive)
| VModule (fullname : string)
| VDictOf (fullname : string).

(** A module's [__dict__]. *)
Abbreviation namespace := (gmap string value).

(** [sys.modules]. *)
Abbreviation registry := (gmap string (gmap string value)).

Inductive exn :=
| ModuleNotFoundError (fullname : string)
| ImportError (name from_module : string)
| AttributeError (name : string)
| TypeError (what : string)
| Raised (what : string).

(** What a foreign module body can do to the process besides building its
    namespace. *)
Inductive effect :=
| IO (what : string)
| Spawn (what : string).

(** A module that the path finder can locate under the package directory:
    the effects of executing its body, the modules that the body leaves
    registered in [sys.modules] (those it imports, or puts there itself),
    and the body's result (an exception, or the namespace it built). *)
Record source := {
  src_effects : list effect;
  src_registers : registry;
  src_result : exn + namespace
}.

Abbreviation finder := (gmap string source).

(** ** The statements of the facade *)

Inductive expr :=
| EStr (s : string)
| EList (items : list expr).

Inductive stmt :=
| Doc (text : string)
| Assign (target : string) (e : expr)
| FromImport (module : string) (names : list string).

Definition facade : string := "hatch_mcp_server".

Definition docstring : string := "
Hatch MCP Server - The wrapper for MCP servers to service Hatch-related applications.

This package provides a class for extending MCP servers with additional functionalities
relevant to the Hatch ecosystem. This includes:

- Citations for Origin Software and MCP server implementations as MCP resources.

".

Definition facade_body : list stmt :=
  [ Doc docstring;
    Assign "__version__" (EStr "0.2.0");
    FromImport "hatch_mcp" ["HatchMCP"];
    Assign "__all__" (EList [EStr "HatchMCP"]) ].

(** The body as the compiler emits it: from optimisation level 2 ([-OO])
    on, the docstring is dropped and nothing stores [__doc__]. *)
Definition compiled (optimize : nat) : list stmt :=
  if decide (optimize < 2)%nat then facade_body else drop 1 facade_body.

(** ** Machine state *)

(** [FindSpec] is the path finder searching for a module (directory
    listings and file status calls), [GetCode] the loader reading the
    module's source or bytecode (and writing the bytecode cache). *)
Inductive action :=
| StoreName (name : string)
| ImportName (fullname : string)
| FindSpec (fullname : string)
| GetCode (fullname : string)
| Setattr (name : string)
| Foreign (e : effect).

(** [globals] is the dict of the module whose body is running; [modules] is
    [sys.modules] without that module's own entry, which refers to [globals]
    for as long as the body runs; [log] records what happened, oldest
    first. *)
Record state := {
  globals : namespace;
  modules : registry;
  log : list action
}.

Inductive outcome :=
| Done (st : state)
| Raise (e : exn) (st : state).

Definition final_state (o : outcome) : state :=
  match o with Done st => st | Raise _ st => st end.

Definition raised (o : outcome) : option exn :=
  match o with Done _ => None | Raise e _ => Some e end.

Fixpoint eval (e : expr) : value :=
  match e with
  | EStr s => VStr s
  | EList items => VList (map eval items)
  end.

(** [STORE_NAME]. *)
Definition store (name : string) (v : value) (st : state) : state :=
  {| globals := <[name := v]> (globals st);
     modules := modules st;
     log := log st ++ [StoreName name] |}.

(** [pkgname.name]. *)
Definition dotted (pkgname name : string) : string := pkgname +:+ "." +:+ name.

(** A level-1 relative name, resolved against the importing package; the
    empty name is the package itself. *)
Definition resolve_name (pkg name : string) : string :=
  match name with
  | EmptyString => pkg
  | _ => dotted pkg name
  end.

(** The whole of [sys.modules] while the body of [pkg] runs. *)
Definition sys_modules (pkg : string) (st : state) : registry :=
  <[pkg := globals st]> (modules st).

(** [_find_and_load]: a module already in [sys.modules] is returned as it
    is.  Otherwise the finder is asked; a module not found is a
    [ModuleNotFoundError]; a module found is executed, and either its
    exception comes out (and the module is not left registered), or the
    module is registered and set as an attribute on its parent package, here
    the package whose [__init__] is running.  Either way the modules that
    the body registered stay. *)
Definition find_and_load (fs : finder) (pkg child : string) (st : state)
  : (exn + namespace) * state :=
  let fullname := resolve_name pkg child in
  let st := {| globals := globals st; modules := modules st;
               log := log st ++ [ImportName fullname] |} in
  match modules st !! fullname with
  | Some m => (inr m, st)
  | None =>
    let lg := log st ++ [FindSpec fullname] in
    match fs !! fullname with
    | None =>
      (inl (ModuleNotFoundError fullname),
       {| globals := globals st; modules := modules st; log := lg |})
    | Some src =>
      let lg := (lg ++ [GetCode fullname]) ++ (Foreign <$> src_effects src) in
      let ms := src_registers src ∪ modules st in
      match src_result src with
      | inl e =>
        (inl e, {| globals := globals st; modules := delete fullname ms;
                   log := lg |})
      | inr m =>
        (inr m, {| globals := <[child := VModule fullname]> (globals st);
                   modules := <[fullname := m]> ms;
                   log := lg ++ [Setattr child] |})
      end
    end
  end.

(** The [__name__] of a module, when it has one that is a string. *)
Definition module_name (m : namespace) : option string :=
  match m !! "__name__" with
  | Some (VStr n) => Some n
  | _ => None
  end.

(** What [IMPORT_FROM] falls back on when the attribute is missing: the
    module registered in [sys.modules] under the module's own [__name__]
    followed by a dot and the name. *)
Definition placeholder (sm : registry) (m : namespace) (name : string)
  : option value :=
  match module_name m with
  | Some n =>
    match sm !! dotted n name with
    | Some _ => Some (VModule (dotted n name))
    | None => None
    end
  | None => None
  end.

(** The name that an [ImportError] gives for the module. *)
Definition pkgname_or_unknown (m : namespace) : string :=
  match module_name m with
  | Some n => n
  | None => "<unknown module name>"
  end.

(** [IMPORT_FROM] on a plain module (one without [__path__]): attribute
    lookup, then the fallback on [sys.modules], and an [ImportError] when
    both miss. *)
Definition import_from (sm : registry) (m : namespace) (name : string)
  : exn + value :=
  match m !! name with
  | Some v => inr v
  | None =>
    match placeholder sm m name with
    | Some v => inr v
    | None => inl (ImportError name (pkgname_or_unknown m))
    end
  end.

(** [IMPORT_FROM name; STORE_NAME name] for each imported name in turn. *)
Fixpoint bind_names (pkg : string) (m : namespace) (names : list string)
    (st : state) : outcome :=
  match names with
  | [] => Done st
  | name :: rest =>
    match import_from (sys_modules pkg st) m name with
    | inl e => Raise e st
    | inr v => bind_names pkg m rest (store name v st)
    end
  end.

Definition exec_stmt (fs : finder) (pkg : string) (s : stmt) (st : state)
  : outcome :=
  match s with
  | Doc text => Done (store "__doc__" (VStr text) st)
  | Assign target e => Done (store target (eval e) st)
  | FromImport module names =>
    match find_and_load fs pkg module st with
    | (inl e, st') => Raise e st'
    | (inr m, st') => bind_names pkg m names st'
    end
  end.

(** A body runs its statements in order; nothing in it catches an
    exception, so the first one raised ends the run. *)
Fixpoint exec_body (fs : finder) (pkg : string) (body : list stmt)
    (st : state) : outcome :=
  match body with
  | [] => Done st
  | s :: rest =>
    match exec_stmt fs pkg s st with
    | Done st' => exec_body fs pkg rest st'
    | Raise e st' => Raise e st'
    end
  end.

(** [exec(code, globals)] puts [__builtins__] in a dict that lacks it
    before the first statement runs. *)
Definition enter (st : state) : state :=
  match globals st !! "__builtins__" with
  | Some _ => st
  | None =>
    {| globals := <["__builtins__" := VDictOf "builtins"]> (globals st);
       modules := modules st;
       log := log st |}
  end.

(** ** Loading the facade *)

(** The attributes a fresh module object of the package starts with (those
    whose values depend on where the package is installed are left out). *)
Definition module_init : namespace :=
  {[ "__name__" := VStr facade;
     "__doc__" := VNone;
     "__package__" := VStr facade ]}.

Definition load_start (ms : registry) : state :=
  enter {| globals := module_init; modules := delete facade ms; log := [] |}.

(** [_load_unlocked] for the facade: a fresh module object is registered
    under the package's name, the body is executed in its dict, and if the
    body raises the registration is removed and the exception re-raised. *)
Definition load_facade (fs : finder) (ms : registry) : outcome :=
  match exec_body fs facade facade_body (load_start ms) with
  | Done st =>
    Done {| globals := globals st;
            modules := <[facade := globals st]> (modules st);
            log := log st |}
  | Raise e st =>
    Raise e {| globals := globals st;
               modules := delete facade (modules st);
               log := log st |}
  end.

(** ** What an importer sees *)

Definition collaborator_name : string := resolve_name facade "hatch_mcp".

(** [getattr(sys.modules[fullname], name)]. *)
Definition module_attr (ms : registry) (fullname name : string) : option value :=
  ms !! fullname ≫= λ m, m !! name.

(** The module object that the collaborator's name resolves to, if any:
    the registered one, else the one the finder locates, provided that its
    body runs to the end. *)
Definition collaborator (fs : finder) (ms : registry) : option namespace :=
  match ms !! collaborator_name with
  | Some m => Some m
  | None =>
    match fs !! collaborator_name with
    | Some src =>
      match src_result src with inr m => Some m | inl _ => None end
    | None => None
    end
  end.

(** [sys.modules] as the from-import finds it when it looks [HatchMCP] up
    on the collaborator: as the load found it if the collaborator was
    registered, and with the collaborator and what its body registered if
    the load executed it.  (The facade's own entry is left as it was; no
    lookup of the from-import reads it.) *)
Definition registry_at_lookup (fs : finder) (ms : registry) : registry :=
  match ms !! collaborator_name with
  | Some _ => ms
  | None =>
    match fs !! collaborator_name with
    | Some src =>
      match src_result src with
      | inr m => <[collaborator_name := m]> (src_registers src ∪ ms)
      | inl _ => ms
      end
    | None => ms
    end
  end.

Definition starts_with_underscore (s : string) : bool :=
  match s with
  | String c _ => bool_decide (c = "_"%char)
  | EmptyString => false
  end.

(** The names in an [__all__] sequence, each looked up on the module. *)
Fixpoint star_names (m : namespace) (items : list value) : exn + namespace :=
  match items with
  | [] => inr ∅
  | VStr name :: rest =>
    match m !! name with
    | None => inl (AttributeError name)
    | Some v =>
      match star_names m rest with
      | inl e => inl e
      | inr bound => inr (<[name := v]> bound)
      end
    end
  | _ :: _ => inl (TypeError "Item in __all__ must be str")
  end.

(** The items that iterating over a string gives: its characters. *)
Definition characters (s : string) : list value :=
  (λ c, VStr (String c EmptyString)) <$> list_ascii_of_string s.

(** [from m import *]: the names that get bound in the importer.  With an
    [__all__] these are exactly its entries; without one, every name that
    does not start with an underscore. *)
Definition import_star (m : namespace) : exn + namespace :=
  match m !! "__all__" with
  | Some (VList items) => star_names m items
  | Some (VStr s) => star_names m (characters s)
  | Some _ => inl (TypeError "__all__ is not iterable")
  | None => inr (filter (λ kv, starts_with_underscore kv.1 = false) m)
  end.

(** ** Names, logs and points of a load *)

(** The names a statement may write in [globals]: its targets, and for a
    from-import also the submodule's name, which [find_and_load] sets on the
    package. *)
Definition binds (s : stmt) : list string :=
  match s with
  | Doc _ => ["__doc__"]
  | Assign target _ => [target]
  | FromImport module names => module :: names
  end.

#[global] Instance effect_eq_dec : EqDecision effect.
Proof. solve_decision. Defined.

#[global] Instance action_eq_dec : EqDecision action.
Proof. solve_decision. Defined.

(** How many times [a] occurs in a log. *)
Definition occurrences (a : action) (l : list action) : nat :=
  length (filter (λ b, b = a) l).

(** [a] occurs in [l], and [b] occurs later. *)
Definition before (a b : action) (l : list action) : Prop :=
  ∃ l1 l2 l3, l = l1 ++ a :: l2 ++ b :: l3.

(** The states a load goes through: the one it starts in and the one after
    each further statement (or at the exception that ends it). *)
Definition load_point (fs : finder) (ms : registry) (n : nat) : outcome :=
  exec_body fs facade (take n facade_body) (load_start ms).

(** The state in which the from-import starts. *)
Definition at_import (ms : registry) : state :=
  store "__version__" (VStr "0.2.0")
    (store "__doc__" (VStr docstring) (load_start ms)).

(** What the from-import adds to the log before any name is stored. *)
Definition import_log (fs : finder) (ms : registry) : list action :=
  ImportName collaborator_name ::
  match ms !! collaborator_name with
  | Some _ => []
  | None =>
    FindSpec collaborator_name ::
    match fs !! collaborator_name with
    | None => []
    | Some src =>
      GetCode collaborator_name ::
      (Foreign <$> src_effects src) ++
      match src_result src with
      | inl _ => []
      | inr _ => [Setattr "hatch_mcp"]
      end
    end
  end.

(** The effects of foreign module bodies in a log. *)
Definition foreign_effects (l : list action) : list effect :=
  omap (λ a, match a with Foreign e => Some e | _ => None end) l.

(** The effects of the collaborator's body, if this load is what executes
    it. *)
Definition first_load_effects (fs : finder) (ms : registry) : list effect :=
  match ms !! collaborator_name with
  | Some _ => []
  | None =>
    match fs !! collaborator_name with
    | Some src => src_effects src
    | None => []
    end
  end.


(** How the resolution of the collaborator ends, read off the environment:
    with the module its name resolves to, or with an exception. *)
Definition resolve_collaborator (fs : finder) (ms : registry) : exn + namespace :=
  match ms !! collaborator_name with
  | Some m => inr m
  | None =>
    match fs !! collaborator_name with
    | None => inl (ModuleNotFoundError collaborator_name)
    | Some src => src_result src
    end
  end.

(** The exception a load ends with, if any. *)
Definition load_error (fs : finder) (ms : registry) : option exn :=
  match resolve_collaborator fs ms with
  | inl e => Some e
  | inr m =>
    match import_from (registry_at_lookup fs ms) m "HatchMCP" with
    | inl e => Some e
    | inr _ => None
    end
  end.



(** A name is set once in a load that ended in [st]: one statement of the
    body binds it, the log has one store of it, and from the point of the
    load where it has a value it has that value at every later point and
    in the loaded module. *)
Definition set_once (fs : finder) (ms : registry) (st : state) (x : string)
  : Prop :=
  length (filter (λ s, x ∈ binds s) facade_body) = 1%nat ∧
  occurrences (StoreName x) (log st) = 1%nat ∧
  ∀ (n k : nat) v, (n ≤ k)%nat →
    globals (final_state (load_point fs ms n)) !! x = Some v →
    globals (final_state (load_point fs ms k)) !! x = Some v ∧
    globals st !! x = Some v.

(** ** Concrete environments

    A collaborator that defines [HatchMCP] and one that does not; finders
    that locate them, and one whose collaborator raises; a registry in
    which the first is already loaded, and one that holds the second
    together with a module registered under the collaborator's name
    followed by [.HatchMCP]. *)
Definition sample_module : namespace :=
  {[ "__name__" := VStr collaborator_name; "HatchMCP" := VObj 1 ]}.
Definition sample_lacking : namespace :=
  {[ "__name__" := VStr collaborator_name; "Other" := VObj 2 ]}.
Definition placeholder_name : string := dotted collaborator_name "HatchMCP".
Definition sample_placeholder : namespace :=
  {[ "__name__" := VStr placeholder_name ]}.
Definition fs_found : finder :=
  {[ collaborator_name :=
       {| src_effects := [IO "open hatch_mcp.py"];
          src_registers := ∅;
          src_result := inr sample_module |} ]}.
Definition fs_raising : finder :=
  {[ collaborator_name :=
       {| src_effects := [IO "open hatch_mcp.py"];
          src_registers := ∅;
          src_result := inl (Raised "ValueError") |} ]}.
Definition ms_cached : registry := {[ collaborator_name := sample_module ]}.
Definition ms_placeholder : registry :=
  {[ collaborator_name := sample_lacking;
     placeholder_name := sample_placeholder ]}.
Definition loaded_found : state := final_state (load_facade fs_found ∅).
Definition loaded_cached : state := final_state (load_facade ∅ ms_cached).
Definition loaded_placeholder : state :=
  final_state (load_facade ∅ ms_placeholder).

(** Looking up a key under inserts and deletes at other keys. *)
Ltac lookup_other :=
  repeat first [ rewrite lookup_insert_ne by done
               | rewrite lookup_delete_ne by done ].

(** * Properties *)

(** ** Frame lemmas of the executor *)

Section Frame.
Variable fs : finder.
Variable pkg : string.

Lemma store_other x y v st :
  x ≠ y → globals (store y v st) !! x = globals st !! x.
Proof. intros Hxy. unfold store; simpl. by rewrite lookup_insert_ne. Qed.

Lemma bind_names_other m names x st :
  x ∉ names →
  globals (final_state (bind_names pkg m names st)) !! x = globals st !! x.
Proof.
  revert st. induction names as [|name rest IH]; intros st Hx; simpl.
  - reflexivity.
  - apply not_elem_of_cons in Hx as [Hne Hrest].
    destruct (import_from (sys_modules pkg st) m name) as [e|v]; simpl.
    + reflexivity.
    + rewrite IH by assumption. by apply store_other.
Qed.

Lemma find_and_load_other child x st :
  x ≠ child →
  globals (find_and_load fs pkg child st).2 !! x = globals st !! x.
Proof.
  intros Hne. unfold find_and_load; simpl.
  destruct (modules st !! resolve_name pkg child); simpl; [reflexivity|].
  destruct (fs !! resolve_name pkg child) as [src|]; simpl; [|reflexivity].
  destruct (src_result src); simpl; [reflexivity|].
  by rewrite lookup_insert_ne.
Qed.

(** A statement leaves alone every name that it does not bind. *)
Lemma exec_stmt_other s x st :
  x ∉ binds s →
  globals (final_state (exec_stmt fs pkg s st)) !! x = globals st !! x.
Proof.
  destruct s as [text|target e|module names]; simpl; intros Hx.
  - apply store_other. by apply not_elem_of_cons in Hx as [Hne _].
  - apply store_other. by apply not_elem_of_cons in Hx as [Hne _].
  - apply not_elem_of_cons in Hx as [Hne Hnames].
    pose proof (find_and_load_other module x st Hne) as Hfl.
    destruct (find_and_load fs pkg module st) as [[e|m] st']; simpl in *.
    + exact Hfl.
    + by rewrite bind_names_other.
Qed.

Lemma exec_body_other body x st :
  Forall (λ s, x ∉ binds s) body →
  globals (final_state (exec_body fs pkg body st)) !! x = globals st !! x.
Proof.
  revert st. induction body as [|s rest IH]; intros st Hall; simpl.
  - reflexivity.
  - apply Forall_cons in Hall as [Hs Hrest].
    pose proof (exec_stmt_other s x st Hs) as Hone.
    destruct (exec_stmt fs pkg s st) as [st'|e st']; simpl in *.
    + by rewrite IH.
    + exact Hone.
Qed.

(** Running a body in two parts. *)
Lemma exec_body_app pre post st :
  exec_body fs pkg (pre ++ post) st =
  match exec_body fs pkg pre st with
  | Done st' => exec_body fs pkg post st'
  | Raise e st' => Raise e st'
  end.
Proof.
  revert st. induction pre as [|s rest IH]; intros st; simpl.
  - reflexivity.
  - destruct (exec_stmt fs pkg s st); [apply IH | reflexivity].
Qed.
End Frame.

(** ** The key of the fallback *)

Lemma collaborator_not_facade : collaborator_name ≠ facade.
Proof. discriminate. Qed.

(** Whatever the module is called, its name followed by [.HatchMCP] is
    neither the facade's name nor the collaborator's. *)
Lemma placeholder_key_facade n : dotted n "HatchMCP" ≠ facade.
Proof.
  unfold dotted, facade. intros H.
  repeat (destruct n as [|? n]; simpl in H; [discriminate H|];
          injection H as _ H).
  destruct n; discriminate H.
Qed.

Lemma placeholder_key_collaborator n : dotted n "HatchMCP" ≠ collaborator_name.
Proof.
  unfold dotted. intros H. vm_compute in H.
  repeat (destruct n as [|? n]; simpl in H; [discriminate H|];
          injection H as _ H).
  destruct n; discriminate H.
Qed.

(** The fallback reads [sys.modules] at such keys only. *)
Lemma import_from_agree sm1 sm2 m :
  (∀ n, sm1 !! dotted n "HatchMCP" = sm2 !! dotted n "HatchMCP") →
  import_from sm1 m "HatchMCP" = import_from sm2 m "HatchMCP".
Proof.
  intros Hagree. unfold import_from, placeholder.
  destruct (m !! "HatchMCP"); [reflexivity|].
  destruct (module_name m) as [n|]; [|reflexivity].
  by rewrite Hagree.
Qed.

Lemma import_from_own_entry g sm m :
  import_from (<[facade := g]> sm) m "HatchMCP" = import_from sm m "HatchMCP".
Proof.
  apply import_from_agree. intros n.
  apply lookup_insert_ne. intros H. symmetry in H.
  exact (placeholder_key_facade n H).
Qed.

(** ** The load, case by case *)

Lemma find_and_load_cases fs st :
  find_and_load fs facade "hatch_mcp" st =
  let lg := log st ++ [ImportName collaborator_name] in
  match modules st !! collaborator_name with
  | Some m => (inr m, {| globals := globals st; modules := modules st; log := lg |})
  | None =>
    let lg := lg ++ [FindSpec collaborator_name] in
    match fs !! collaborator_name with
    | None => (inl (ModuleNotFoundError collaborator_name),
               {| globals := globals st; modules := modules st; log := lg |})
    | Some src =>
      let lg := (lg ++ [GetCode collaborator_name]) ++ (Foreign <$> src_effects src) in
      let reg := src_registers src ∪ modules st in
      match src_result src with
      | inl e => (inl e, {| globals := globals st;
                            modules := delete collaborator_name reg;
                            log := lg |})
      | inr m => (inr m,
                  {| globals := <["hatch_mcp" := VModule collaborator_name]> (globals st);
                     modules := <[collaborator_name := m]> reg;
                     log := lg ++ [Setattr "hatch_mcp"] |})
      end
    end
  end.
Proof. reflexivity. Qed.

Lemma exec_facade_body fs st :
  exec_body fs facade facade_body st =
  match find_and_load fs facade "hatch_mcp"
          (store "__version__" (VStr "0.2.0")
             (store "__doc__" (VStr docstring) st)) with
  | (inl e, st') => Raise e st'
  | (inr m, st') =>
    match import_from (modules st') m "HatchMCP" with
    | inr v =>
      Done (store "__all__" (VList [VStr "HatchMCP"]) (store "HatchMCP" v st'))
    | inl e => Raise e st'
    end
  end.
Proof.
  unfold facade_body, exec_body, exec_stmt.
  destruct (find_and_load fs facade "hatch_mcp" _) as [[e|m] st']; [reflexivity|].
  unfold bind_names, sys_modules. rewrite import_from_own_entry.
  destruct (import_from (modules st') m "HatchMCP"); reflexivity.
Qed.

(** What the import machinery does with the collaborator when the facade
    asks for it, in terms of the registry and the finder the load began
    with. *)
Lemma find_collaborator fs ms :
  find_and_load fs facade "hatch_mcp" (at_import ms) =
  let st := at_import ms in
  let lg := log st ++ [ImportName collaborator_name] in
  match ms !! collaborator_name with
  | Some m => (inr m, {| globals := globals st; modules := delete facade ms; log := lg |})
  | None =>
    let lg := lg ++ [FindSpec collaborator_name] in
    match fs !! collaborator_name with
    | None => (inl (ModuleNotFoundError collaborator_name),
               {| globals := globals st; modules := delete facade ms; log := lg |})
    | Some src =>
      let lg := (lg ++ [GetCode collaborator_name]) ++ (Foreign <$> src_effects src) in
      let reg := src_registers src ∪ delete facade ms in
      match src_result src with
      | inl e => (inl e, {| globals := globals st;
                            modules := delete collaborator_name reg;
                            log := lg |})
      | inr m => (inr m,
                  {| globals := <["hatch_mcp" := VModule collaborator_name]> (globals st);
                     modules := <[collaborator_name := m]> reg;
                     log := lg ++ [Setattr "hatch_mcp"] |})
      end
    end
  end.
Proof.
  rewrite find_and_load_cases.
  change (modules (at_import ms)) with (delete facade ms).
  cbv zeta.
  rewrite (lookup_delete_ne ms facade collaborator_name)
    by (intros H; symmetry in H; exact (collaborator_not_facade H)).
  reflexivity.
Qed.

(** At the keys the fallback reads, the registry that the import leaves is
    [registry_at_lookup]. *)
Lemma lookup_registry_agree fs ms m st' n :
  find_and_load fs facade "hatch_mcp" (at_import ms) = (inr m, st') →
  modules st' !! dotted n "HatchMCP"
    = registry_at_lookup fs ms !! dotted n "HatchMCP".
Proof.
  pose proof (placeholder_key_facade n) as Hf.
  pose proof (placeholder_key_collaborator n) as Hc.
  rewrite find_collaborator. unfold registry_at_lookup. simpl.
  destruct (ms !! collaborator_name) as [m0|].
  - intros [= _ <-]. simpl. by rewrite lookup_delete_ne.
  - destruct (fs !! collaborator_name) as [src|]; [|discriminate].
    destruct (src_result src) as [e|m0]; [discriminate|].
    intros [= _ <-]. simpl.
    rewrite !lookup_insert_ne by done.
    by rewrite !lookup_union, lookup_delete_ne.
Qed.

Lemma import_from_at_lookup fs ms m st' :
  find_and_load fs facade "hatch_mcp" (at_import ms) = (inr m, st') →
  import_from (modules st') m "HatchMCP"
    = import_from (registry_at_lookup fs ms) m "HatchMCP".
Proof.
  intros Hfind. apply import_from_agree. intros n.
  by apply (lookup_registry_agree fs ms m st').
Qed.

Lemma resolve_collaborator_find fs ms :
  (find_and_load fs facade "hatch_mcp" (at_import ms)).1 = resolve_collaborator fs ms.
Proof.
  rewrite find_collaborator. unfold resolve_collaborator. simpl.
  destruct (ms !! collaborator_name); [reflexivity|].
  destruct (fs !! collaborator_name) as [src|]; [|reflexivity].
  destruct (src_result src); reflexivity.
Qed.

Lemma collaborator_resolved fs ms m :
  resolve_collaborator fs ms = inr m ↔ collaborator fs ms = Some m.
Proof.
  unfold resolve_collaborator, collaborator.
  destruct (ms !! collaborator_name); [naive_solver|].
  destruct (fs !! collaborator_name) as [src|]; [|naive_solver].
  destruct (src_result src); naive_solver.
Qed.

(** The load in one equation. *)
Lemma load_facade_unfold fs ms :
  load_facade fs ms =
  match find_and_load fs facade "hatch_mcp" (at_import ms) with
  | (inl e, st') =>
    Raise e {| globals := globals st'; modules := delete facade (modules st');
               log := log st' |}
  | (inr m, st') =>
    match import_from (registry_at_lookup fs ms) m "HatchMCP" with
    | inr v =>
      Done {| globals := <["__all__" := VList [VStr "HatchMCP"]]>
                           (<["HatchMCP" := v]> (globals st'));
              modules := <[facade := <["__all__" := VList [VStr "HatchMCP"]]>
                                       (<["HatchMCP" := v]> (globals st'))]>
                           (modules st');
              log := (log st' ++ [StoreName "HatchMCP"]) ++ [StoreName "__all__"] |}
    | inl e =>
      Raise e {| globals := globals st'; modules := delete facade (modules st');
                 log := log st' |}
    end
  end.
Proof.
  unfold load_facade. rewrite exec_facade_body. fold (at_import ms).
  destruct (find_and_load fs facade "hatch_mcp" (at_import ms))
    as [[e|m] st'] eqn:Hfind; [reflexivity|].
  rewrite (import_from_at_lookup fs ms m st' Hfind).
  destruct (import_from (registry_at_lookup fs ms) m "HatchMCP"); reflexivity.
Qed.

(** A successful load, taken apart: the collaborator resolved to a module
    [m], the lookup of [HatchMCP] on it gave [v], and the facade's dict is
    the dict the import left behind with the two last names stored on
    top. *)
Lemma load_done_inv fs ms st :
  load_facade fs ms = Done st →
  ∃ m v st',
    find_and_load fs facade "hatch_mcp" (at_import ms) = (inr m, st') ∧
    collaborator fs ms = Some m ∧
    import_from (registry_at_lookup fs ms) m "HatchMCP" = inr v ∧
    globals st =
      <["__all__" := VList [VStr "HatchMCP"]]> (<["HatchMCP" := v]> (globals st')) ∧
    modules st = <[facade := globals st]> (modules st') ∧
    log st = (log st' ++ [StoreName "HatchMCP"]) ++ [StoreName "__all__"].
Proof.
  rewrite load_facade_unfold. intros Hload.
  pose proof (resolve_collaborator_find fs ms) as Hres.
  destruct (find_and_load fs facade "hatch_mcp" (at_import ms))
    as [[e|m] st'] eqn:Hfind; [discriminate|].
  destruct (import_from (registry_at_lookup fs ms) m "HatchMCP") as [e|v] eqn:Hattr;
    [discriminate|].
  injection Hload as <-. exists m, v, st'. simpl in Hres.
  split_and!; try reflexivity; try assumption.
  by apply collaborator_resolved.
Qed.

(** The dict that the import leaves behind still has what was stored before
    it. *)
Lemma version_at_bind fs ms r st' :
  find_and_load fs facade "hatch_mcp" (at_import ms) = (r, st') →
  globals st' !! "__version__" = Some (VStr "0.2.0") ∧
  globals st' !! "__all__" = None ∧
  globals st' !! "HatchMCP" = None.
Proof.
  intros Hfind.
  pose proof (find_and_load_other fs facade "hatch_mcp" "__version__" (at_import ms)) as Hv.
  pose proof (find_and_load_other fs facade "hatch_mcp" "__all__" (at_import ms)) as Ha.
  pose proof (find_and_load_other fs facade "hatch_mcp" "HatchMCP" (at_import ms)) as Hh.
  rewrite Hfind in Hv, Ha, Hh. simpl in Hv, Ha, Hh.
  rewrite Hv, Ha, Hh by discriminate.
  split_and!; reflexivity.
Qed.

(** The attributes of the loaded facade, all at once: the module registered
    under the facade's name is the dict the body ran in, and that dict
    holds the version, the manifest and the object that the lookup on the
    collaborator gave. *)
Lemma load_done_attrs fs ms st :
  load_facade fs ms = Done st →
  modules st !! facade = Some (globals st) ∧
  globals st !! "__version__" = Some (VStr "0.2.0") ∧
  globals st !! "__all__" = Some (VList [VStr "HatchMCP"]) ∧
  ∃ m obj, collaborator fs ms = Some m ∧
           import_from (registry_at_lookup fs ms) m "HatchMCP" = inr obj ∧
           globals st !! "HatchMCP" = Some obj.
Proof.
  intros Hload.
  destruct (load_done_inv _ _ _ Hload)
    as (m & v & st' & Hfind & Hres & Hattr & Hg & Hm & _).
  destruct (version_at_bind _ _ _ _ Hfind) as (Hver & _ & _).
  split_and!.
  - rewrite Hm. apply lookup_insert_eq.
  - rewrite Hg. do 2 (rewrite lookup_insert_ne by discriminate). exact Hver.
  - rewrite Hg. apply lookup_insert_eq.
  - exists m, v. split_and!; try assumption.
    rewrite Hg. rewrite lookup_insert_ne by discriminate. apply lookup_insert_eq.
Qed.

Lemma load_raise_unregistered fs ms e st :
  load_facade fs ms = Raise e st → modules st !! facade = None.
Proof.
  unfold load_facade.
  destruct (exec_body fs facade facade_body (load_start ms)) as [st0|e0 st0];
    [discriminate|].
  intros [= _ <-]. simpl. apply lookup_delete_eq.
Qed.

Lemma raised_none o : raised o = None → ∃ st, o = Done st.
Proof. destruct o as [st|e st]; [eauto | discriminate]. Qed.

Lemma raised_some o e : raised o = Some e → ∃ st, o = Raise e st.
Proof. destruct o as [st|e0 st]; [discriminate | intros [= ->]; eauto]. Qed.

Lemma load_raised fs ms : raised (load_facade fs ms) = load_error fs ms.
Proof.
  rewrite load_facade_unfold. unfold load_error.
  rewrite <- resolve_collaborator_find.
  destruct (find_and_load fs facade "hatch_mcp" (at_import ms)) as [[e|m] st'];
    [reflexivity|]. simpl.
  destruct (import_from (registry_at_lookup fs ms) m "HatchMCP"); reflexivity.
Qed.

(** After any load the collaborator's entry in [sys.modules] is the module
    its name resolved to, if it resolved. *)
Lemma load_collaborator_entry fs ms :
  modules (final_state (load_facade fs ms)) !! collaborator_name =
  collaborator fs ms.
Proof.
  pose proof collaborator_not_facade as Hne.
  rewrite load_facade_unfold, find_collaborator. unfold collaborator. simpl.
  destruct (ms !! collaborator_name) as [m|] eqn:Hreg.
  - destruct (import_from (registry_at_lookup fs ms) m "HatchMCP");
      simpl; by lookup_other.
  - destruct (fs !! collaborator_name) as [src|]; simpl; [|by lookup_other].
    destruct (src_result src) as [e|m]; simpl.
    + lookup_other. apply lookup_delete_eq.
    + destruct (import_from (registry_at_lookup fs ms) m "HatchMCP");
        simpl; lookup_other; apply lookup_insert_eq.
Qed.

(** Whether the facade's dict has the submodule as an attribute. *)
Lemma submodule_attribute fs ms :
  globals (final_state (load_facade fs ms)) !! "hatch_mcp" =
  match ms !! collaborator_name with
  | Some _ => None
  | None =>
    match fs !! collaborator_name with
    | Some src =>
      match src_result src with
      | inr _ => Some (VModule collaborator_name)
      | inl _ => None
      end
    | None => None
    end
  end.
Proof.
  rewrite load_facade_unfold, find_collaborator. simpl.
  destruct (ms !! collaborator_name) as [m|].
  - destruct (import_from (registry_at_lookup fs ms) m "HatchMCP"); reflexivity.
  - destruct (fs !! collaborator_name) as [src|]; [|reflexivity].
    destruct (src_result src) as [e|m]; [reflexivity|].
    destruct (import_from (registry_at_lookup fs ms) m "HatchMCP"); reflexivity.
Qed.

(** How a lookup of [HatchMCP] can end. *)
Lemma import_from_inr sm m v :
  import_from sm m "HatchMCP" = inr v →
  m !! "HatchMCP" = Some v ∨
  (m !! "HatchMCP" = None ∧
   ∃ n, module_name m = Some n ∧ is_Some (sm !! dotted n "HatchMCP") ∧
        v = VModule (dotted n "HatchMCP")).
Proof.
  unfold import_from, placeholder.
  destruct (m !! "HatchMCP") as [w|]; [intros [= ->]; by left|].
  destruct (module_name m) as [n|]; [|discriminate].
  destruct (sm !! dotted n "HatchMCP") eqn:Hreg; [|discriminate].
  intros [= <-]. right. split; [reflexivity|]. exists n. rewrite Hreg. eauto.
Qed.



(** ** C1 and C2: the version and the export manifest *)

(** C1. After the facade has loaded, [__version__] exists on it and is the
    string ["0.2.0"], in the module's dict and so for whoever reaches the
    module through [sys.modules]. *)
Theorem version_after_load (fs : finder) (ms : registry) (st : state) :
  load_facade fs ms = Done st →
  globals st !! "__version__" = Some (VStr "0.2.0") ∧
  module_attr (modules st) facade "__version__" = Some (VStr "0.2.0").
Proof.
  intros Hload.
  destruct (load_done_inv _ _ _ Hload) as (m & v & st' & Hfind & _ & _ & Hg & Hm & _).
  destruct (version_at_bind _ _ _ _ Hfind) as (Hver & _ & _).
  assert (globals st !! "__version__" = Some (VStr "0.2.0")) as Hgv.
  { rewrite Hg. do 2 (rewrite lookup_insert_ne by discriminate). exact Hver. }
  split; [exact Hgv|].
  unfold module_attr. rewrite Hm, lookup_insert_eq. exact Hgv.
Qed.

(** C2. After the facade has loaded, [__all__] is the list with the one
    entry ["HatchMCP"]. *)
Theorem manifest_after_load (fs : finder) (ms : registry) (st : state) :
  load_facade fs ms = Done st →
  globals st !! "__all__" = Some (VList [VStr "HatchMCP"]) ∧
  module_attr (modules st) facade "__all__" = Some (VList [VStr "HatchMCP"]).
Proof.
  intros Hload.
  destruct (load_done_inv _ _ _ Hload) as (m & v & st' & _ & _ & _ & Hg & Hm & _).
  assert (globals st !! "__all__" = Some (VList [VStr "HatchMCP"])) as Hga.
  { rewrite Hg. apply lookup_insert_eq. }
  split; [exact Hga|].
  unfold module_attr. rewrite Hm, lookup_insert_eq. exact Hga.
Qed.

Lemma version_after_load_witness :
  load_facade fs_found ∅ = Done loaded_found ∧
  globals loaded_found !! "__version__" = Some (VStr "0.2.0") ∧
  module_attr (modules loaded_found) facade "__version__" = Some (VStr "0.2.0").
Proof.
  split; [reflexivity|].
  apply (version_after_load fs_found ∅ loaded_found). reflexivity.
Defined.

Lemma manifest_after_load_witness :
  load_facade ∅ ms_cached = Done loaded_cached ∧
  globals loaded_cached !! "__all__" = Some (VList [VStr "HatchMCP"]) ∧
  module_attr (modules loaded_cached) facade "__all__" = Some (VList [VStr "HatchMCP"]).
Proof.
  split; [reflexivity|].
  apply (manifest_after_load ∅ ms_cached loaded_cached). reflexivity.
Defined.

(** ** C3 and C4: the re-exported symbol *)




(** C4 as the specification words it has the facade's [HatchMCP] be the
    collaborator's on every load.  At the environment above the load
    succeeds, the collaborator has no [HatchMCP], and the facade's is the
    module that [sys.modules] held under the longer name. *)
Lemma export_identity_counterexample :
  load_facade ∅ ms_placeholder = Done loaded_placeholder ∧
  module_attr (modules loaded_placeholder) collaborator_name "HatchMCP" = None ∧
  module_attr (modules loaded_placeholder) facade "HatchMCP"
    = Some (VModule placeholder_name) ∧
  ¬ (∀ fs ms st, load_facade fs ms = Done st →
       ∃ m obj, collaborator fs ms = Some m ∧ m !! "HatchMCP" = Some obj ∧
                globals st !! "HatchMCP" = Some obj).
Proof.
  split_and!; [reflexivity.. |].
  intros Hsame.
  destruct (Hsame ∅ ms_placeholder loaded_placeholder eq_refl)
    as (m & obj & Hres & Hattr & _).
  vm_compute in Hres. injection Hres as <-.
  vm_compute in Hattr. discriminate Hattr.
Qed.

Lemma collaborator_registered fs ms m st' :
  find_and_load fs facade "hatch_mcp" (at_import ms) = (inr m, st') →
  modules st' !! collaborator_name = Some m.
Proof.
  rewrite find_collaborator. simpl.
  destruct (ms !! collaborator_name) as [m0|] eqn:Hreg.
  - intros [= <- <-]. simpl.
    rewrite lookup_delete_ne; [exact Hreg|].
    intros H. symmetry in H. exact (collaborator_not_facade H).
  - destruct (fs !! collaborator_name) as [src|]; [|discriminate].
    destruct (src_result src); [discriminate|].
    intros [= <- <-]. simpl. apply lookup_insert_eq.
Qed.

(** C4, amended. In a loaded facade, when the collaborator module defines
    [HatchMCP], the facade's [HatchMCP] is that object: the value stored is
    the value looked up, and the attribute read through the facade and the
    attribute read through the collaborator's own entry in [sys.modules]
    are the same.  When the collaborator does not define it, the load
    succeeded through the fallback, and the facade's [HatchMCP] is the
    module registered under the collaborator's [__name__] followed by
    [.HatchMCP]. *)
Theorem export_identity (fs : finder) (ms : registry) (st : state) :
  load_facade fs ms = Done st →
  ∃ m,
    collaborator fs ms = Some m ∧
    modules st !! collaborator_name = Some m ∧
    match m !! "HatchMCP" with
    | Some obj =>
      globals st !! "HatchMCP" = Some obj ∧
      module_attr (modules st) facade "HatchMCP" = Some obj ∧
      module_attr (modules st) collaborator_name "HatchMCP" = Some obj
    | None =>
      ∃ n, module_name m = Some n ∧
           is_Some (registry_at_lookup fs ms !! dotted n "HatchMCP") ∧
           globals st !! "HatchMCP" = Some (VModule (dotted n "HatchMCP")) ∧
           module_attr (modules st) facade "HatchMCP"
             = Some (VModule (dotted n "HatchMCP"))
    end.
Proof.
  intros Hload.
  destruct (load_done_inv _ _ _ Hload)
    as (m & v & st' & Hfind & Hres & Hattr & Hg & Hm & _).
  assert (globals st !! "HatchMCP" = Some v) as Hgh.
  { rewrite Hg. rewrite lookup_insert_ne by discriminate. apply lookup_insert_eq. }
  assert (module_attr (modules st) facade "HatchMCP" = Some v) as Hfa.
  { unfold module_attr. rewrite Hm, lookup_insert_eq. exact Hgh. }
  assert (modules st !! collaborator_name = Some m) as Hreg.
  { rewrite Hm.
    rewrite lookup_insert_ne
      by (intros H; symmetry in H; exact (collaborator_not_facade H)).
    exact (collaborator_registered _ _ _ _ Hfind). }
  exists m. split_and!; try assumption.
  destruct (import_from_inr _ _ _ Hattr) as [Hown | (Hnone & n & Hname & Hph & ->)].
  - rewrite Hown. split_and!; try assumption.
    unfold module_attr. rewrite Hreg. exact Hown.
  - rewrite Hnone. exists n. by split_and!.
Qed.

Lemma export_identity_witness :
  load_facade fs_found ∅ = Done loaded_found ∧
  ∃ m,
    collaborator fs_found ∅ = Some m ∧
    modules loaded_found !! collaborator_name = Some m ∧
    match m !! "HatchMCP" with
    | Some obj =>
      globals loaded_found !! "HatchMCP" = Some obj ∧
      module_attr (modules loaded_found) facade "HatchMCP" = Some obj ∧
      module_attr (modules loaded_found) collaborator_name "HatchMCP" = Some obj
    | None =>
      ∃ n, module_name m = Some n ∧
           is_Some (registry_at_lookup fs_found ∅ !! dotted n "HatchMCP") ∧
           globals loaded_found !! "HatchMCP" = Some (VModule (dotted n "HatchMCP")) ∧
           module_attr (modules loaded_found) facade "HatchMCP"
             = Some (VModule (dotted n "HatchMCP"))
    end.
Proof.
  split; [reflexivity|].
  apply (export_identity fs_found ∅ loaded_found). reflexivity.
Defined.

(** ** C5: all or nothing *)

(** C5. A load attempt ends in one of two ways.  Either it succeeds, and
    then the importer can read both [__version__] and [HatchMCP] on the
    facade; or it raises, and then the facade is not in [sys.modules], so
    the importer can read no attribute of it at all. *)
Theorem load_all_or_nothing (fs : finder) (ms : registry) :
  let o := load_facade fs ms in
  let after := modules (final_state o) in
  (raised o = None ∧
   is_Some (module_attr after facade "__version__") ∧
   is_Some (module_attr after facade "HatchMCP"))
  ∨
  (is_Some (raised o) ∧
   after !! facade = None ∧
   module_attr after facade "__version__" = None ∧
   module_attr after facade "HatchMCP" = None).
Proof.
  simpl. destruct (load_facade fs ms) as [st|e st] eqn:Hload; simpl.
  - left. destruct (load_done_attrs _ _ _ Hload) as (Hreg & Hv & _ & m & obj & _ & _ & Hh).
    unfold module_attr. rewrite Hreg. simpl. rewrite Hv, Hh. eauto.
  - right. pose proof (load_raise_unregistered _ _ _ _ Hload) as Hreg.
    unfold module_attr. rewrite Hreg. eauto.
Qed.

(** ** C10: two loads against the same collaborator *)

Lemma import_from_own sm m obj :
  m !! "HatchMCP" = Some obj → import_from sm m "HatchMCP" = inr obj.
Proof. intros Hattr. unfold import_from. by rewrite Hattr. Qed.

(** C10 as the specification words it has any two successful loads
    against the same collaborator bind [HatchMCP] to the same object that
    the collaborator defines.  Two loads at the environment above, the
    second in the [sys.modules] the first one left, both succeed against
    the same collaborator, which defines no [HatchMCP] at all. *)
Lemma load_deterministic_counterexample :
  load_facade ∅ ms_placeholder = Done loaded_placeholder ∧
  raised (load_facade ∅ (modules loaded_placeholder)) = None ∧
  collaborator ∅ ms_placeholder = Some sample_lacking ∧
  collaborator ∅ (modules loaded_placeholder) = Some sample_lacking ∧
  sample_lacking !! "HatchMCP" = None ∧
  ¬ (∀ fs1 fs2 ms1 ms2 st1 st2,
       load_facade fs1 ms1 = Done st1 →
       load_facade fs2 ms2 = Done st2 →
       collaborator fs1 ms1 = collaborator fs2 ms2 →
       ∃ m, collaborator fs1 ms1 = Some m ∧
            globals st1 !! "HatchMCP" = m !! "HatchMCP" ∧
            globals st2 !! "HatchMCP" = m !! "HatchMCP").
Proof.
  split_and!; [reflexivity.. |].
  intros Hsame.
  destruct (Hsame ∅ ∅ ms_placeholder ms_placeholder
              loaded_placeholder loaded_placeholder eq_refl eq_refl eq_refl)
    as (m & Hres & Hbound & _).
  vm_compute in Hres. injection Hres as <-.
  vm_compute in Hbound. discriminate Hbound.
Qed.

(** C10, amended. Take two successful loads of which the second finds
    registered in [sys.modules] the collaborator module that the first one
    used, a module that defines [HatchMCP].  Both give the version
    ["0.2.0"] and the manifest [["HatchMCP"]], and both bind [HatchMCP] to
    the object that this module defines. *)
Theorem load_deterministic (fs1 fs2 : finder) (ms1 ms2 : registry)
    (st1 st2 : state) (obj : value) :
  load_facade fs1 ms1 = Done st1 →
  load_facade fs2 ms2 = Done st2 →
  ms2 !! collaborator_name = modules st1 !! collaborator_name →
  module_attr (modules st1) collaborator_name "HatchMCP" = Some obj →
  globals st1 !! "__version__" = Some (VStr "0.2.0") ∧
  globals st2 !! "__version__" = Some (VStr "0.2.0") ∧
  globals st1 !! "__all__" = Some (VList [VStr "HatchMCP"]) ∧
  globals st2 !! "__all__" = Some (VList [VStr "HatchMCP"]) ∧
  globals st1 !! "HatchMCP" = Some obj ∧
  globals st2 !! "HatchMCP" = Some obj ∧
  module_attr (modules st2) collaborator_name "HatchMCP" = Some obj.
Proof.
  intros H1 H2 Hsame Hdef.
  destruct (load_done_attrs _ _ _ H1) as (_ & Hv1 & Ha1 & m1 & o1 & Hc1 & Hl1 & Hh1).
  destruct (load_done_attrs _ _ _ H2) as (_ & Hv2 & Ha2 & m2 & o2 & Hc2 & Hl2 & Hh2).
  pose proof (load_collaborator_entry fs1 ms1) as He1.
  pose proof (load_collaborator_entry fs2 ms2) as He2.
  rewrite H1 in He1. rewrite H2 in He2. simpl in He1, He2.
  rewrite Hc1 in He1. rewrite Hc2 in He2.
  unfold module_attr in Hdef. rewrite He1 in Hdef. simpl in Hdef.
  rewrite He1 in Hsame.
  assert (m2 = m1) as ->.
  { unfold collaborator in Hc2. rewrite Hsame in Hc2. congruence. }
  rewrite (import_from_own _ _ _ Hdef) in Hl1.
  rewrite (import_from_own _ _ _ Hdef) in Hl2.
  injection Hl1 as <-. injection Hl2 as <-.
  split_and!; try assumption.
  unfold module_attr. rewrite He2. exact Hdef.
Qed.

Lemma load_deterministic_witness :
  load_facade fs_found ∅ = Done loaded_found ∧
  load_facade ∅ ms_cached = Done loaded_cached ∧
  ms_cached !! collaborator_name = modules loaded_found !! collaborator_name ∧
  module_attr (modules loaded_found) collaborator_name "HatchMCP" = Some (VObj 1) ∧
  globals loaded_found !! "__version__" = Some (VStr "0.2.0") ∧
  globals loaded_cached !! "__version__" = Some (VStr "0.2.0") ∧
  globals loaded_found !! "__all__" = Some (VList [VStr "HatchMCP"]) ∧
  globals loaded_cached !! "__all__" = Some (VList [VStr "HatchMCP"]) ∧
  globals loaded_found !! "HatchMCP" = Some (VObj 1) ∧
  globals loaded_cached !! "HatchMCP" = Some (VObj 1) ∧
  module_attr (modules loaded_cached) collaborator_name "HatchMCP" = Some (VObj 1).
Proof.
  split; [reflexivity|]. split; [reflexivity|].
  split; [reflexivity|]. split; [reflexivity|].
  apply (load_deterministic fs_found ∅ ∅ ms_cached loaded_found loaded_cached (VObj 1));
    reflexivity.
Defined.

(** ** C8: the wildcard import and the names outside the manifest *)

(** C8 as the specification words it would have [hatch_mcp] readable on
    every loaded facade.  With the collaborator already in [sys.modules]
    the import machinery returns it without setting it on the package, and
    the load succeeds with no [hatch_mcp] attribute. *)
Lemma submodule_attribute_counterexample :
  load_facade ∅ ms_cached = Done loaded_cached ∧
  module_attr (modules loaded_cached) facade "hatch_mcp" = None ∧
  ¬ (∀ fs ms st, load_facade fs ms = Done st →
       is_Some (module_attr (modules st) facade "hatch_mcp")).
Proof.
  split; [reflexivity|]. split; [reflexivity|].
  intros Hall.
  destruct (Hall ∅ ms_cached loaded_cached eq_refl) as [v Hv].
  vm_compute in Hv. discriminate Hv.
Qed.

(** C8, amended. [from hatch_mcp_server import *] binds exactly one name,
    [HatchMCP], to the object the facade has under that name.
    [__version__], which is not in the manifest, can still be read as an
    attribute of the loaded facade; the [hatch_mcp] submodule can be read
    that way when this load is what loaded the collaborator, and is not an
    attribute of the facade when the collaborator was in [sys.modules]
    already. *)
Theorem wildcard_import_and_attributes (fs : finder) (ms : registry) (st : state) :
  load_facade fs ms = Done st →
  (∃ obj, module_attr (modules st) facade "HatchMCP" = Some obj ∧
          import_star (globals st) = inr {[ "HatchMCP" := obj ]}) ∧
  module_attr (modules st) facade "__version__" = Some (VStr "0.2.0") ∧
  module_attr (modules st) facade "hatch_mcp" =
    match ms !! collaborator_name with
    | None => Some (VModule collaborator_name)
    | Some _ => None
    end.
Proof.
  intros Hload.
  destruct (load_done_attrs _ _ _ Hload) as (Hreg & Hv & Ha & _ & obj & _ & _ & Hh).
  pose proof (submodule_attribute fs ms) as Hsub.
  pose proof (load_raised fs ms) as Hok.
  rewrite Hload in Hsub, Hok. simpl in Hsub, Hok.
  split_and!.
  - exists obj. split.
    + unfold module_attr. rewrite Hreg. exact Hh.
    + unfold import_star. rewrite Ha. simpl. rewrite Hh. reflexivity.
  - unfold module_attr. rewrite Hreg. exact Hv.
  - unfold module_attr. rewrite Hreg. simpl. rewrite Hsub.
    unfold load_error, resolve_collaborator in Hok.
    destruct (ms !! collaborator_name); [reflexivity|].
    destruct (fs !! collaborator_name) as [src|]; [|discriminate].
    destruct (src_result src); [discriminate | reflexivity].
Qed.

Lemma wildcard_import_and_attributes_witness :
  load_facade fs_found ∅ = Done loaded_found ∧
  (∃ obj, module_attr (modules loaded_found) facade "HatchMCP" = Some obj ∧
          import_star (globals loaded_found) = inr {[ "HatchMCP" := obj ]}) ∧
  module_attr (modules loaded_found) facade "__version__" = Some (VStr "0.2.0") ∧
  module_attr (modules loaded_found) facade "hatch_mcp" =
    match (∅ : registry) !! collaborator_name with
    | None => Some (VModule collaborator_name)
    | Some _ => None
    end.
Proof.
  split; [reflexivity|].
  apply (wildcard_import_and_attributes fs_found ∅ loaded_found). reflexivity.
Defined.

(** ** The log of a load *)

Lemma load_log fs ms :
  log (final_state (load_facade fs ms)) =
  [StoreName "__doc__"; StoreName "__version__"] ++ import_log fs ms ++
  match raised (load_facade fs ms) with
  | None => [StoreName "HatchMCP"; StoreName "__all__"]
  | Some _ => []
  end.
Proof.
  rewrite load_facade_unfold, find_collaborator. unfold import_log. simpl.
  destruct (ms !! collaborator_name) as [m|].
  - destruct (import_from (registry_at_lookup fs ms) m "HatchMCP"); reflexivity.
  - destruct (fs !! collaborator_name) as [src|]; [|reflexivity].
    destruct (src_result src) as [e|m]; simpl.
    + by rewrite !app_nil_r.
    + destruct (import_from (registry_at_lookup fs ms) m "HatchMCP"); simpl.
      * by rewrite !app_nil_r.
      * by rewrite <- !app_assoc.
Qed.

Lemma occurrences_app a l1 l2 :
  occurrences a (l1 ++ l2) = occurrences a l1 + occurrences a l2.
Proof. unfold occurrences. by rewrite filter_app, length_app. Qed.

Lemma occurrences_cons_ne a b l :
  b ≠ a → occurrences a (b :: l) = occurrences a l.
Proof. intros Hne. unfold occurrences. by rewrite filter_cons_False. Qed.

Lemma occurrences_foreign_other a effs :
  (∀ e, Foreign e ≠ a) → occurrences a (Foreign <$> effs) = 0%nat.
Proof.
  intros Ha. unfold occurrences. induction effs as [|e rest IH]; [reflexivity|].
  rewrite fmap_cons, filter_cons_False by apply Ha. exact IH.
Qed.

Lemma occurrences_import_log fs ms x :
  occurrences (StoreName x) (import_log fs ms) = 0%nat.
Proof.
  unfold import_log. rewrite occurrences_cons_ne by discriminate.
  destruct (ms !! collaborator_name); [reflexivity|].
  rewrite occurrences_cons_ne by discriminate.
  destruct (fs !! collaborator_name) as [src|]; [|reflexivity].
  rewrite occurrences_cons_ne by discriminate.
  rewrite occurrences_app, occurrences_foreign_other by discriminate.
  destruct (src_result src); [reflexivity|].
  by rewrite occurrences_cons_ne by discriminate.
Qed.

Lemma import_log_head fs ms :
  ∃ rest, import_log fs ms = ImportName collaborator_name :: rest ∧
          occurrences (ImportName collaborator_name) rest = 0%nat.
Proof.
  unfold import_log. eexists. split; [reflexivity|].
  destruct (ms !! collaborator_name); [reflexivity|].
  rewrite occurrences_cons_ne by discriminate.
  destruct (fs !! collaborator_name) as [src|]; [|reflexivity].
  rewrite occurrences_cons_ne by discriminate.
  rewrite occurrences_app, occurrences_foreign_other by discriminate.
  destruct (src_result src); reflexivity.
Qed.

Lemma foreign_effects_app l1 l2 :
  foreign_effects (l1 ++ l2) = foreign_effects l1 ++ foreign_effects l2.
Proof. unfold foreign_effects. apply omap_app. Qed.

Lemma foreign_effects_fmap effs : foreign_effects (Foreign <$> effs) = effs.
Proof.
  induction effs as [|e rest IH]; [reflexivity|].
  change (foreign_effects (Foreign <$> e :: rest))
    with (e :: foreign_effects (Foreign <$> rest)).
  by rewrite IH.
Qed.

Lemma foreign_effects_import_log fs ms :
  foreign_effects (import_log fs ms) = first_load_effects fs ms.
Proof.
  unfold import_log, first_load_effects.
  change (foreign_effects (ImportName collaborator_name :: ?l))
    with (foreign_effects l).
  destruct (ms !! collaborator_name); [reflexivity|].
  change (foreign_effects (FindSpec collaborator_name :: ?l))
    with (foreign_effects l).
  destruct (fs !! collaborator_name) as [src|]; [|reflexivity].
  change (foreign_effects (GetCode collaborator_name :: ?l))
    with (foreign_effects l).
  rewrite foreign_effects_app, foreign_effects_fmap.
  destruct (src_result src); simpl; by rewrite app_nil_r.
Qed.

Lemma load_foreign_effects fs ms :
  foreign_effects (log (final_state (load_facade fs ms))) =
  first_load_effects fs ms.
Proof.
  rewrite load_log, !foreign_effects_app, foreign_effects_import_log.
  destruct (raised (load_facade fs ms)); simpl; by rewrite app_nil_r.
Qed.

(** ** The points of a load *)

Lemma load_point_full fs ms (n : nat) :
  (4 ≤ n)%nat → load_point fs ms n = exec_body fs facade facade_body (load_start ms).
Proof.
  intros Hn. unfold load_point. by rewrite take_ge by (simpl; lia).
Qed.

(** The load is the last point, with the registration settled. *)
Lemma load_facade_globals fs ms :
  globals (final_state (load_facade fs ms)) =
  globals (final_state (exec_body fs facade facade_body (load_start ms))).
Proof.
  unfold load_facade.
  destruct (exec_body fs facade facade_body (load_start ms)); reflexivity.
Qed.

(** A later point of the load is an earlier one followed by the statements
    in between. *)
Lemma load_point_split fs ms (n k : nat) :
  (n ≤ k)%nat →
  load_point fs ms k =
  match load_point fs ms n with
  | Done st => exec_body fs facade (take (k - n) (drop n facade_body)) st
  | Raise e st => Raise e st
  end.
Proof.
  intros Hnk. unfold load_point.
  replace k with (n + (k - n))%nat at 1 by lia.
  rewrite <- take_take_drop. apply exec_body_app.
Qed.

(** Statements that do not bind [x], from point [n] on, leave [x] at every
    later point as it is at point [n]. *)
Lemma load_point_stable fs ms (n k : nat) x :
  (n ≤ k)%nat →
  Forall (λ s, x ∉ binds s) (drop n facade_body) →
  globals (final_state (load_point fs ms k)) !! x =
  globals (final_state (load_point fs ms n)) !! x.
Proof.
  intros Hnk Hrest. rewrite (load_point_split fs ms n k Hnk).
  destruct (load_point fs ms n) as [st|e st]; [|reflexivity].
  apply exec_body_other. by apply Forall_take.
Qed.

(** Statements that do not bind [x], up to point [n], leave [x] as it is
    when the body starts. *)
Lemma load_point_untouched fs ms (n : nat) x :
  Forall (λ s, x ∉ binds s) (take n facade_body) →
  globals (final_state (load_point fs ms n)) !! x = globals (load_start ms) !! x.
Proof. intros Hpre. unfold load_point. by rewrite exec_body_other. Qed.

Lemma load_facade_is_last_point fs ms :
  globals (final_state (load_facade fs ms)) =
  globals (final_state (load_point fs ms (length facade_body))).
Proof.
  rewrite load_facade_globals. unfold load_point. by rewrite firstn_all.
Qed.

(** Whatever the outcome, the dict the body ran in has the version. *)
Lemma version_in_any_outcome fs ms :
  globals (final_state (load_facade fs ms)) !! "__version__" = Some (VStr "0.2.0").
Proof.
  rewrite load_facade_is_last_point.
  rewrite (load_point_stable fs ms 2 (length facade_body)).
  - reflexivity.
  - simpl. lia.
  - compute_done.
Qed.

(** From the point where one of the two names has a value on, it keeps
    it. *)
Lemma load_point_keeps fs ms x (n k : nat) v :
  x = "__version__" ∨ x = "__all__" →
  (n ≤ k)%nat →
  globals (final_state (load_point fs ms n)) !! x = Some v →
  globals (final_state (load_point fs ms k)) !! x = Some v.
Proof.
  intros Hx Hnk Hn.
  assert (Forall (λ s, x ∉ binds s) (take n facade_body)
          ∨ Forall (λ s, x ∉ binds s) (drop n facade_body)) as [Hpre | Hpost].
  { destruct Hx as [-> | ->];
      destruct n as [|[|[|[|n]]]];
      first [ left; compute_done
            | right; compute_done
            | right; simpl; rewrite drop_nil; constructor ]. }
  - rewrite (load_point_untouched fs ms n x Hpre) in Hn.
    destruct Hx as [-> | ->]; vm_compute in Hn; discriminate Hn.
  - by rewrite (load_point_stable fs ms n k x Hnk Hpost).
Qed.

Lemma load_point_final fs ms x (n : nat) v :
  x = "__version__" ∨ x = "__all__" →
  globals (final_state (load_point fs ms n)) !! x = Some v →
  globals (final_state (load_facade fs ms)) !! x = Some v.
Proof.
  intros Hx Hn. rewrite load_facade_is_last_point.
  destruct (decide (n ≤ length facade_body)%nat) as [Hle | Hgt].
  - by apply (load_point_keeps fs ms x n (length facade_body)).
  - unfold load_point in *. rewrite firstn_all.
    rewrite take_ge in Hn by lia. exact Hn.
Qed.

(** ** C6: set once, never changed *)

Lemma set_once_after_load fs ms st x :
  x = "__version__" ∨ x = "__all__" →
  load_facade fs ms = Done st →
  set_once fs ms st x.
Proof.
  intros Hx Hload. unfold set_once. split_and!.
  - destruct Hx as [-> | ->]; reflexivity.
  - pose proof (load_log fs ms) as Hlog. rewrite Hload in Hlog.
    change (log st = [StoreName "__doc__"; StoreName "__version__"]
                     ++ import_log fs ms
                     ++ [StoreName "HatchMCP"; StoreName "__all__"]) in Hlog.
    rewrite Hlog, !occurrences_app, occurrences_import_log.
    destruct Hx as [-> | ->]; reflexivity.
  - intros n k v Hnk Hn. split.
    + by apply (load_point_keeps fs ms x n k).
    + pose proof (load_point_final fs ms x n v Hx Hn) as Hfinal.
      by rewrite Hload in Hfinal.
Qed.

(** Executing the body again in a loaded facade, as a reload does and
    with whatever finder, completes and leaves the module dict as it
    is. *)
Lemma rerun_after_load fs fs' ms st :
  load_facade fs ms = Done st →
  ∃ st2, exec_body fs' facade facade_body st = Done st2 ∧
         globals st2 = globals st.
Proof.
  intros Hload.
  destruct (load_done_inv _ _ _ Hload)
    as (m & v & st' & Hfind & Hres & Hattr & _ & Hm & _).
  destruct (load_done_attrs _ _ _ Hload) as (_ & Hv & Ha & m' & v' & Hres' & Hattr' & Hh).
  assert (m' = m) as -> by congruence.
  assert (v' = v) as -> by congruence.
  assert (globals st !! "__doc__" = Some (VStr docstring)) as Hd.
  { pose proof (load_facade_is_last_point fs ms) as Hlast.
    rewrite Hload in Hlast. simpl in Hlast. rewrite Hlast.
    rewrite (load_point_stable fs ms 1 (length facade_body)).
    - reflexivity.
    - simpl. lia.
    - compute_done. }
  assert (modules st !! collaborator_name = Some m) as Hreg.
  { rewrite Hm.
    rewrite lookup_insert_ne
      by (intros H; symmetry in H; exact (collaborator_not_facade H)).
    exact (collaborator_registered _ _ _ _ Hfind). }
  assert (import_from (modules st) m "HatchMCP" = inr v) as Hagain.
  { rewrite Hm, import_from_own_entry.
    by rewrite (import_from_at_lookup fs ms m st' Hfind). }
  rewrite exec_facade_body, find_and_load_cases.
  cbn [store modules globals log]. rewrite Hreg.
  cbv zeta. cbn [store modules globals log]. rewrite Hagain.
  eexists. split; [reflexivity|]. simpl.
  apply map_eq. intros k. rewrite !lookup_insert.
  repeat case_decide; subst; congruence.
Qed.

(** C6. In a loaded facade [__version__] is ["0.2.0"] and [__all__] is
    [["HatchMCP"]], and each of the two was set once: the body has one
    statement that binds it, the load stored it once, and from the point of
    the load where it got its value no later statement changed it, so that
    the loaded module has the value it was given.  The body defines no
    function or class, so the one way for code of the facade to run after
    the load is to execute the body again, and that leaves both names with
    the values they have. *)
Theorem version_and_manifest_set_once (fs : finder) (ms : registry) (st : state) :
  load_facade fs ms = Done st →
  globals st !! "__version__" = Some (VStr "0.2.0") ∧
  globals st !! "__all__" = Some (VList [VStr "HatchMCP"]) ∧
  set_once fs ms st "__version__" ∧
  set_once fs ms st "__all__" ∧
  ∀ fs', ∃ st2,
    exec_body fs' facade facade_body st = Done st2 ∧
    globals st2 !! "__version__" = Some (VStr "0.2.0") ∧
    globals st2 !! "__all__" = Some (VList [VStr "HatchMCP"]).
Proof.
  intros Hload.
  destruct (load_done_attrs _ _ _ Hload) as (_ & Hv & Ha & _).
  split_and!; try assumption.
  - apply set_once_after_load; [by left | exact Hload].
  - apply set_once_after_load; [by right | exact Hload].
  - intros fs'.
    destruct (rerun_after_load fs fs' ms st Hload) as (st2 & Hrun & Hsame).
    exists st2. rewrite Hsame. by split_and!.
Qed.

Lemma version_and_manifest_set_once_witness :
  load_facade fs_found ∅ = Done loaded_found ∧
  globals loaded_found !! "__version__" = Some (VStr "0.2.0") ∧
  globals loaded_found !! "__all__" = Some (VList [VStr "HatchMCP"]) ∧
  set_once fs_found ∅ loaded_found "__version__" ∧
  set_once fs_found ∅ loaded_found "__all__" ∧
  ∀ fs', ∃ st2,
    exec_body fs' facade facade_body loaded_found = Done st2 ∧
    globals st2 !! "__version__" = Some (VStr "0.2.0") ∧
    globals st2 !! "__all__" = Some (VList [VStr "HatchMCP"]).
Proof.
  split; [reflexivity|].
  apply (version_and_manifest_set_once fs_found ∅ loaded_found). reflexivity.
Defined.

(** ** C9: the order of the load *)

(** C9. In every load, [__version__] is stored before the collaborator is
    asked for, which happens once.  In a load that succeeds, [__all__] is
    stored after that, and after [HatchMCP] is; in a load that raises,
    [__all__] is never stored and the dict at the point of the exception has
    the version.  At no point of a load is [__all__] bound while [HatchMCP]
    is not. *)
Theorem load_order (fs : finder) (ms : registry) :
  let o := load_facade fs ms in
  let lg := log (final_state o) in
  before (StoreName "__version__") (ImportName collaborator_name) lg ∧
  occurrences (ImportName collaborator_name) lg = 1%nat ∧
  match raised o with
  | None =>
    before (ImportName collaborator_name) (StoreName "__all__") lg ∧
    before (StoreName "HatchMCP") (StoreName "__all__") lg
  | Some _ =>
    occurrences (StoreName "__all__") lg = 0%nat ∧
    globals (final_state o) !! "__version__" = Some (VStr "0.2.0")
  end ∧
  (∀ n : nat,
     is_Some (globals (final_state (load_point fs ms n)) !! "__all__") →
     is_Some (globals (final_state (load_point fs ms n)) !! "HatchMCP")).
Proof.
  intros o lg. subst lg o.
  pose proof (version_in_any_outcome fs ms) as Hver.
  rewrite load_log.
  destruct (import_log_head fs ms) as (rest & Hlog & Hrest).
  split_and!.
  - exists [StoreName "__doc__"], [], (rest ++
      match raised (load_facade fs ms) with
      | None => [StoreName "HatchMCP"; StoreName "__all__"]
      | Some _ => []
      end).
    rewrite Hlog. reflexivity.
  - rewrite Hlog.
    change (ImportName collaborator_name :: rest)
      with ([ImportName collaborator_name] ++ rest).
    rewrite !occurrences_app, Hrest.
    destruct (raised (load_facade fs ms)); reflexivity.
  - destruct (raised (load_facade fs ms)).
    + split; [|exact Hver].
      rewrite !occurrences_app, occurrences_import_log. reflexivity.
    + split.
      * exists [StoreName "__doc__"; StoreName "__version__"],
               (rest ++ [StoreName "HatchMCP"]), [].
        rewrite Hlog. simpl. by rewrite <- app_assoc.
      * exists ([StoreName "__doc__"; StoreName "__version__"] ++ import_log fs ms), [], [].
        by rewrite <- app_assoc.
  - intros n Hall.
    destruct (decide (n < 4)%nat) as [Hlt | Hge].
    + rewrite load_point_untouched in Hall.
      * vm_compute in Hall. destruct Hall as [v Hv]. discriminate Hv.
      * destruct n as [|[|[|[|n]]]]; [compute_done.. | lia].
    + rewrite load_point_full in * by lia.
      rewrite exec_facade_body in *. fold (at_import ms) in *.
      destruct (find_and_load fs facade "hatch_mcp" (at_import ms))
        as [r st'] eqn:Hfind.
      destruct (version_at_bind _ _ _ _ Hfind) as (_ & Hnoall & _).
      destruct r as [e|m]; simpl in *.
      * rewrite Hnoall in Hall. by destruct Hall.
      * destruct (import_from (modules st') m "HatchMCP") as [e|v]; simpl in *.
        -- rewrite Hnoall in Hall. by destruct Hall.
        -- rewrite lookup_insert_ne by discriminate.
           rewrite lookup_insert_eq. eauto.
Qed.

(** ** C7: what a load changes *)




(** * Further properties of the module body *)

(** ** A collaborator that raises, and loading again *)

(** At the keys the fallback reads, the registry that a load leaves when
    the collaborator resolved is [registry_at_lookup]. *)
Lemma final_registry_agree fs ms n :
  is_Some (collaborator fs ms) →
  modules (final_state (load_facade fs ms)) !! dotted n "HatchMCP"
    = registry_at_lookup fs ms !! dotted n "HatchMCP".
Proof.
  intros [m Hres]. apply collaborator_resolved in Hres.
  pose proof (placeholder_key_facade n) as Hf.
  pose proof (resolve_collaborator_find fs ms) as Hfst.
  rewrite load_facade_unfold.
  destruct (find_and_load fs facade "hatch_mcp" (at_import ms))
    as [[e|m0] st'] eqn:Hfind; simpl in Hfst; [congruence|].
  pose proof (lookup_registry_agree fs ms m0 st' n Hfind) as Hagree.
  destruct (import_from (registry_at_lookup fs ms) m0 "HatchMCP");
    simpl; by lookup_other.
Qed.

(** X2. When the collaborator is not registered and its body raises, the
    load raises that same exception.  Neither the facade nor the
    collaborator is left in [sys.modules], the facade's dict did not get the
    submodule attribute, and the effects of the collaborator's body have
    taken place all the same. *)
Theorem collaborator_exception_propagates (fs : finder) (ms : registry)
    (src : source) (e : exn) :
  ms !! collaborator_name = None →
  fs !! collaborator_name = Some src →
  src_result src = inl e →
  ∃ st,
    load_facade fs ms = Raise e st ∧
    modules st !! facade = None ∧
    modules st !! collaborator_name = None ∧
    globals st !! "hatch_mcp" = None ∧
    foreign_effects (log st) = src_effects src.
Proof.
  intros Hreg Hfound Hbody.
  assert (raised (load_facade fs ms) = Some e) as Hraised.
  { rewrite load_raised. unfold load_error, resolve_collaborator.
    by rewrite Hreg, Hfound, Hbody. }
  destruct (raised_some _ _ Hraised) as [st Hload]. exists st.
  pose proof (load_collaborator_entry fs ms) as Hentry.
  pose proof (submodule_attribute fs ms) as Hattr.
  pose proof (load_foreign_effects fs ms) as Heff.
  rewrite Hload in Hentry, Hattr, Heff. simpl in Hentry, Hattr, Heff.
  unfold collaborator in Hentry. unfold first_load_effects in Heff.
  rewrite Hreg, Hfound in Hentry, Hattr, Heff. rewrite Hbody in Hentry, Hattr.
  split_and!; try assumption.
  by apply (load_raise_unregistered fs ms e).
Qed.

Lemma collaborator_exception_propagates_witness :
  ∃ st,
    load_facade fs_raising ∅ = Raise (Raised "ValueError") st ∧
    modules st !! facade = None ∧
    modules st !! collaborator_name = None ∧
    globals st !! "hatch_mcp" = None ∧
    foreign_effects (log st) = [IO "open hatch_mcp.py"].
Proof.
  apply (collaborator_exception_propagates fs_raising ∅
           {| src_effects := [IO "open hatch_mcp.py"];
              src_registers := ∅;
              src_result := inl (Raised "ValueError") |});
    reflexivity.
Defined.



(** X4. After a successful load, loading the facade afresh in the
    [sys.modules] it left, with whatever finder, succeeds without
    executing the collaborator again: no effect of foreign code occurs, the
    collaborator's entry stays, [HatchMCP] is bound to the same object, and
    the new module object has no [hatch_mcp] attribute. *)
Theorem load_again_uses_registered_collaborator (fs fs' : finder)
    (ms : registry) (st : state) :
  load_facade fs ms = Done st →
  ∃ st',
    load_facade fs' (modules st) = Done st' ∧
    globals st' !! "HatchMCP" = globals st !! "HatchMCP" ∧
    foreign_effects (log st') = [] ∧
    modules st' !! collaborator_name = modules st !! collaborator_name ∧
    globals st' !! "hatch_mcp" = None.
Proof.
  intros Hload.
  destruct (load_done_attrs _ _ _ Hload) as (_ & _ & _ & m & obj & Hres & Hobj & Hbound).
  pose proof (load_collaborator_entry fs ms) as Hentry.
  rewrite Hload in Hentry. simpl in Hentry. rewrite Hres in Hentry.
  assert (import_from (registry_at_lookup fs' (modules st)) m "HatchMCP" = inr obj)
    as Hobj'.
  { unfold registry_at_lookup. rewrite Hentry. rewrite <- Hobj.
    apply import_from_agree. intros n.
    pose proof (final_registry_agree fs ms n) as Hagree.
    rewrite Hload in Hagree. simpl in Hagree. apply Hagree. eauto. }
  assert (raised (load_facade fs' (modules st)) = None) as Hok.
  { rewrite load_raised. unfold load_error, resolve_collaborator.
    by rewrite Hentry, Hobj'. }
  destruct (raised_none _ Hok) as [st' Hload']. exists st'.
  destruct (load_done_attrs _ _ _ Hload') as (_ & _ & _ & m' & obj' & Hres' & Hobj'' & Hbound').
  pose proof (load_collaborator_entry fs' (modules st)) as Hentry'.
  pose proof (submodule_attribute fs' (modules st)) as Hattr'.
  pose proof (load_foreign_effects fs' (modules st)) as Heff'.
  rewrite Hload' in Hentry', Hattr', Heff'. simpl in Hentry', Hattr', Heff'.
  unfold first_load_effects in Heff'. rewrite Hentry in Hattr', Heff'.
  unfold collaborator in Hres'. rewrite Hentry in Hres'. injection Hres' as <-.
  split_and!; try assumption; try reflexivity.
  - congruence.
  - rewrite Hentry'. unfold collaborator. by rewrite Hentry.
Qed.

Lemma load_again_uses_registered_collaborator_witness :
  load_facade fs_found ∅ = Done loaded_found ∧
  ∃ st',
    load_facade ∅ (modules loaded_found) = Done st' ∧
    globals st' !! "HatchMCP" = globals loaded_found !! "HatchMCP" ∧
    foreign_effects (log st') = [] ∧
    modules st' !! collaborator_name = modules loaded_found !! collaborator_name ∧
    globals st' !! "hatch_mcp" = None.
Proof.
  split; [reflexivity|].
  apply (load_again_uses_registered_collaborator fs_found ∅ ∅ loaded_found).
  reflexivity.
Defined.

(** ** What the body leaves alone, and running it twice *)





(** X6. Running the body again in the state a run of it ended in, with
    whatever finder, succeeds and changes neither the module dict nor
    [sys.modules], and executes no foreign code: the second run finds the
    collaborator registered and stores the values that are there already. *)
Theorem body_run_twice (fs fs' : finder) (st st1 : state) :
  exec_body fs facade facade_body st = Done st1 →
  ∃ st2,
    exec_body fs' facade facade_body st1 = Done st2 ∧
    globals st2 = globals st1 ∧
    modules st2 = modules st1 ∧
    foreign_effects (log st2) = foreign_effects (log st1).
Proof.
  rewrite !exec_facade_body, !find_and_load_cases. simpl.
  intros Hrun.
  assert (∃ m v, modules st1 !! collaborator_name = Some m ∧
                 import_from (modules st1) m "HatchMCP" = inr v ∧
                 globals st1 !! "__doc__" = Some (VStr docstring) ∧
                 globals st1 !! "__version__" = Some (VStr "0.2.0") ∧
                 globals st1 !! "HatchMCP" = Some v ∧
                 globals st1 !! "__all__" = Some (VList [VStr "HatchMCP"]))
    as (m & v & Hreg1 & Hattr & Hd & Hv & Hh & Ha).
  { destruct (modules st !! collaborator_name) as [m|] eqn:Hreg.
    - simpl in Hrun.
      destruct (import_from (modules st) m "HatchMCP") as [e|v] eqn:Hattr;
        [discriminate|].
      injection Hrun as <-. exists m, v. simpl.
      split_and!; try done; lookup_other; apply lookup_insert_eq.
    - destruct (fs !! collaborator_name) as [src|]; [|discriminate].
      destruct (src_result src) as [e|m]; [discriminate|]. simpl in Hrun.
      destruct (import_from _ m "HatchMCP") as [e|v] eqn:Hattr; [discriminate|].
      injection Hrun as <-. exists m, v. simpl.
      split_and!; try done; lookup_other; apply lookup_insert_eq. }
  rewrite Hreg1. simpl. rewrite Hattr. eexists. split; [reflexivity|]. simpl.
  split_and!.
  - apply map_eq. intros k. rewrite !lookup_insert.
    repeat case_decide; subst; congruence.
  - reflexivity.
  - rewrite <- !app_assoc, foreign_effects_app. simpl. apply app_nil_r.
Qed.

Lemma body_run_twice_witness :
  exec_body fs_found facade facade_body (load_start ∅)
    = Done (final_state (exec_body fs_found facade facade_body (load_start ∅))) ∧
  ∃ st2,
    exec_body ∅ facade facade_body
      (final_state (exec_body fs_found facade facade_body (load_start ∅)))
      = Done st2 ∧
    globals st2
      = globals (final_state (exec_body fs_found facade facade_body (load_start ∅))) ∧
    modules st2
      = modules (final_state (exec_body fs_found facade facade_body (load_start ∅))) ∧
    foreign_effects (log st2)
      = foreign_effects
          (log (final_state (exec_body fs_found facade facade_body (load_start ∅)))).
Proof.
  split; [reflexivity|].
  apply (body_run_twice fs_found ∅ (load_start ∅)
           (final_state (exec_body fs_found facade facade_body (load_start ∅)))).
  reflexivity.
Defined.

(** ** The docstring and the optimisation level *)

(** X8. Compiled without [-OO], the body replaces whatever the module dict
    has under [__doc__] (a fresh module has [None]) by the docstring,
    whether the run then succeeds or raises; compiled with [-OO], it leaves
    [__doc__] as it is.  Either way it binds [__version__]. *)
Theorem docstring_bound (fs : finder) (ms : registry) (st : state)
    (optimize : nat) :
  globals (load_start ms) !! "__doc__" = Some VNone ∧
  globals (final_state (exec_body fs facade (compiled optimize) st)) !! "__doc__"
    = (if decide (optimize < 2)%nat then Some (VStr docstring)
       else globals st !! "__doc__") ∧
  globals (final_state (exec_body fs facade (compiled optimize) st)) !! "__version__"
    = Some (VStr "0.2.0").
Proof.
  split; [reflexivity|].
  unfold compiled. destruct (decide (optimize < 2)%nat) as [Hlow | Hhigh].
  - change facade_body
      with ([Doc docstring; Assign "__version__" (EStr "0.2.0")]
            ++ [FromImport "hatch_mcp" ["HatchMCP"];
                Assign "__all__" (EList [EStr "HatchMCP"])]).
    rewrite exec_body_app.
    change (exec_body fs facade
              [Doc docstring; Assign "__version__" (EStr "0.2.0")] st)
      with (Done (store "__version__" (VStr "0.2.0")
                    (store "__doc__" (VStr docstring) st))).
    cbv beta iota. rewrite !exec_body_other by compute_done.
    unfold store; simpl. split.
    + lookup_other. apply lookup_insert_eq.
    + apply lookup_insert_eq.
  - change (drop 1 facade_body)
      with ([Assign "__version__" (EStr "0.2.0")]
            ++ [FromImport "hatch_mcp" ["HatchMCP"];
                Assign "__all__" (EList [EStr "HatchMCP"])]).
    rewrite exec_body_app.
    change (exec_body fs facade [Assign "__version__" (EStr "0.2.0")] st)
      with (Done (store "__version__" (VStr "0.2.0") st)).
    cbv beta iota. rewrite !exec_body_other by compute_done.
    unfold store; simpl. split.
    + by lookup_other.
    + apply lookup_insert_eq.
Qed.
